(** * Greeting service over gRPC: the server handlers and the client

    A shallow embedding of [server/main.go] and [client/main.go].  The two
    handlers of the greeting service ([SayHello], [SayHelloMultiple]) and the
    client's [main] are written as functions in small monads that thread the
    state of the RPC substrate and collect the observable events (log lines,
    sends, sleeps, receives, process exit) in the order the code performs
    them. *)

From Stdlib Require Import String Ascii ZArith List Lia Bool DecimalString Sorted.
From Equations Require Import Equations.
Import ListNotations.

Open Scope string_scope.
Open Scope Z_scope.

(** ** The fragments of the Go runtime the program uses *)
Module Go.

(** Go [error] values: the sentinel [io.EOF], and every other error, which
    the program only ever prints through [%v]. *)
Inductive error : Type :=
| io_EOF
| Err (msg : string).

(** [err.Error()]; [io.EOF] is [errors.New("EOF")]. *)
Definition Error (e : error) : string :=
  match e with
  | io_EOF => "EOF"
  | Err msg => msg
  end.

(** [err == io.EOF] on a possibly nil error. *)
Definition is_EOF (err : option error) : bool :=
  match err with
  | Some io_EOF => true
  | _ => false
  end.

(** [time.Duration] counts nanoseconds. *)
Definition Duration : Type := Z.
Definition Second : Duration := 1000000000.

(** The conversion [int32(i)] of a Go [int]: two's complement wrap-around. *)
Definition int32 (i : Z) : Z := (i + 2 ^ 31) mod 2 ^ 32 - 2 ^ 31.

(** The verb [%d] of package fmt. *)
Definition fmt_d (i : Z) : string := NilZero.string_of_int (Z.to_int i).

(** The escape ["\n"]. *)
Definition nl : string := String (ascii_of_nat 10) EmptyString.

(** [string(make([]byte, n))]: [n] zero bytes. *)
Fixpoint zero_bytes (n : nat) : string :=
  match n with
  | O => EmptyString
  | S n' => String zero (zero_bytes n')
  end.

(** A [context.Context], as far as the program builds one: the timeout it
    carries, if any, counted from its creation. *)
Record Context : Type := { timeout : option Duration }.

Definition Background : Context := {| timeout := None |}.

Definition WithTimeout (parent : Context) (d : Duration) : Context :=
  {| timeout := Some (match timeout parent with
                      | Some p => Z.min p d
                      | None => d
                      end) |}.

End Go.

(** ** The messages of the service *)
Module pb.

(** Modelled from the spec: the generated package [pb] (the [.proto] file
    and the code generated from it) is not among the sources.  The spec's
    data model gives a Request the field [name : string] and a Response the
    fields [message : string] and [count : integer]; the handlers build
    [Count] with [int32].  Messages are handled through pointers, here
    [option]; a getter on a nil pointer yields the zero value of the
    field. *)
Record HelloRequest : Type := { Name : string }.

Record HelloResponse : Type := { Message : string; Count : Z }.

Definition GetName (x : option HelloRequest) : string :=
  match x with
  | Some r => Name r
  | None => ""
  end.

Definition GetMessage (x : option HelloResponse) : string :=
  match x with
  | Some r => Message r
  | None => ""
  end.

Definition GetCount (x : option HelloResponse) : Z :=
  match x with
  | Some r => Count r
  | None => 0
  end.

End pb.

(** ** server/main.go *)
Module Server.
Import Go pb.

(** What a handler does that can be observed from outside, in order. *)
Inductive event : Type :=
| EvLog (line : string)                              (* log.Printf *)
| EvSend (r : HelloResponse) (res : option error)    (* stream.Send and what it returned *)
| EvSleep (d : Duration).                            (* time.Sleep *)

(** [type server struct { pb.UnimplementedGreetingServiceServer }]: no
    state of its own. *)
Inductive server : Type := mk_server.

(** [pb.GreetingService_SayHelloMultipleServer]: the sending half of the
    stream, owned by the RPC substrate.  [S] is the substrate's state. *)
Class SayHelloMultipleServer (S : Type) : Type :=
  { stream_Send : HelloResponse -> S -> option error * S }.

Section Handlers.
Context {S : Type} `{SayHelloMultipleServer S}.

(** Handlers run in a state monad over the substrate that also collects
    the events. *)
Definition M (A : Type) : Type := S -> A * S * list event.

Definition ret {A : Type} (a : A) : M A := fun s => (a, s, []).

Definition bind {A B : Type} (m : M A) (k : A -> M B) : M B :=
  fun s =>
    let '(a, s1, t1) := m s in
    let '(b, s2, t2) := k a s1 in
    (b, s2, (t1 ++ t2)%list).

Definition log_Printf (line : string) : M unit :=
  fun s => (tt, s, [EvLog line]).

Definition time_Sleep (d : Duration) : M unit :=
  fun s => (tt, s, [EvSleep d]).

Definition Send (r : HelloResponse) : M (option error) :=
  fun s => let '(res, s') := stream_Send r s in (res, s', [EvSend r res]).

End Handlers.

Notation "x <- m ;; k" := (bind m (fun x => k))
  (at level 61, m at next level, right associativity).
Notation "m ;; k" := (bind m (fun _ => k))
  (at level 61, right associativity).

(** [SayHello]: the unary handler.  It touches no stream; it returns the
    pair [(response, err)] and its one log line. *)
Definition SayHello (s : server) (ctx : Context) (req : option HelloRequest)
  : (option HelloResponse * option error) * list event :=
  let response :=
    {| Message := "Hello, " ++ GetName req ++ "! Welcome to gRPC with Go!";
       Count := 1 |} in
  ((Some response, None),
   [EvLog ("Received request from: " ++ GetName req)]).

(** The response built in round [i] of the streaming loop. *)
Definition streaming_response (req : option HelloRequest) (i : Z) : HelloResponse :=
  {| Message := "Hello #" ++ fmt_d i ++ ", " ++ GetName req
                ++ "! Streaming response " ++ fmt_d i ++ " of 5";
     Count := int32 i |}.

(** The loop [for i := 1; i <= 5; i++] terminates because [5 + 1 - i]
    decreases. *)
Definition rounds_left (i : Z) : nat := Z.to_nat (5 + 1 - i).

Arguments rounds_left : simpl never.

Section Streaming.
Context {S : Type} `{SayHelloMultipleServer S}.

Equations? SayHelloMultiple_loop (req : option HelloRequest) (i : Z)
  : M (S := S) (option error) by wf (rounds_left i) lt :=
  SayHelloMultiple_loop req i with Z_le_dec i 5 := {
    | left _ =>
        let response := streaming_response req i in
        err <- Send response ;;
        match err with
        | Some e => ret (Some e)
        | None =>
            log_Printf ("Sent streaming response #" ++ fmt_d i
                        ++ " to " ++ GetName req) ;;
            time_Sleep (1 * Second) ;;
            SayHelloMultiple_loop req (i + 1)
        end
    | right _ => ret None }.
Proof. unfold rounds_left. lia. Qed.

(** [SayHelloMultiple]: the server-streaming handler. *)
Definition SayHelloMultiple (s : server) (req : option HelloRequest)
  : M (S := S) (option error) :=
  log_Printf ("Received streaming request from: " ++ GetName req) ;;
  SayHelloMultiple_loop req 1.

End Streaming.

(** *** Reading a trace *)

(** The calls of [stream.Send] in a trace: the response handed over and
    what the call returned, in order. *)
Fixpoint sent (tr : list event) : list (HelloResponse * option error) :=
  match tr with
  | [] => []
  | EvSend r res :: tr' => (r, res) :: sent tr'
  | _ :: tr' => sent tr'
  end.

(** The sleeps before the next call of [stream.Send], or before the handler
    returns when there is none. *)
Fixpoint sleeps_until_send (tr : list event) : list Duration :=
  match tr with
  | [] => []
  | EvSend _ _ :: _ => []
  | EvSleep d :: tr' => d :: sleeps_until_send tr'
  | EvLog _ :: tr' => sleeps_until_send tr'
  end.

(** For every call of [stream.Send] in a trace, in order: the sleeps
    between it and the next call, or the return of the handler. *)
Fixpoint pauses (tr : list event) : list (list Duration) :=
  match tr with
  | [] => []
  | EvSend _ _ :: tr' => sleeps_until_send tr' :: pauses tr'
  | _ :: tr' => pauses tr'
  end.

(** The events of round [i] of the streaming loop when its send succeeds. *)
Definition round (req : option HelloRequest) (i : Z) : list event :=
  [EvSend (streaming_response req i) None;
   EvLog ("Sent streaming response #" ++ fmt_d i ++ " to " ++ GetName req);
   EvSleep (1 * Second)].

(** [n] such rounds in a row, from round [i] on. *)
Fixpoint rounds (req : option HelloRequest) (i : Z) (n : nat) : list event :=
  match n with
  | O => []
  | S n' => (round req i ++ rounds req (i + 1) n')%list
  end.

(** The [(message, count)] pairs a run handed to [stream.Send]. *)
Definition emitted (tr : list event) : list (string * Z) :=
  map (fun r => (Message r, Count r)) (map fst (sent tr)).

(** A run of a handler is the triple of what it returned, the state it
    left the substrate in, and its events. *)
Abbreviation returned run := (fst (fst run)).
Abbreviation events run := (snd run).

End Server.

(** ** client/main.go *)
Module Client.
Import Go pb.

(** What the client process does that can be observed from outside, in
    order.  Calls into the RPC substrate are recorded with what they
    returned. *)
Inductive event : Type :=
| EvLog (line : string)                                  (* package log *)
| EvPrint (text : string)                                (* package fmt, standard output *)
| EvNewClient (target : string) (err : option error)     (* grpc.NewClient *)
| EvSayHello (ctx : Context) (req : option HelloRequest)
    (response : option HelloResponse) (err : option error)
| EvSayHelloMultiple (ctx : Context) (req : option HelloRequest)
    (err : option error)
| EvRecv (response : option HelloResponse) (err : option error)  (* stream.Recv *)
| EvCancel                                               (* the deferred cancel() *)
| EvClose                                                (* the deferred conn.Close() *)
| EvExit (code : Z).                                     (* os.Exit *)

(** The RPC substrate as the client sees it: the connection, the generated
    client stub and the receiving half of the stream.  [C] is the state of
    the substrate (and of the remote server behind it). *)
Class GreetingServiceClient (C : Type) : Type :=
  { grpc_NewClient : string -> C -> option error * C;
    conn_Close : C -> C;
    ctx_cancel : C -> C;
    client_SayHello :
      Context -> option HelloRequest -> C -> (option HelloResponse * option error) * C;
    client_SayHelloMultiple :
      Context -> option HelloRequest -> C -> option error * C;
    stream_Recv : C -> (option HelloResponse * option error) * C }.

(** How a piece of [main] ends: it goes on with a value, the process has
    exited, or the model ran out of fuel in the endless [for]. *)
Inductive outcome (A : Type) : Type :=
| Returned (a : A)
| Exited (code : Z)
| OutOfFuel.
Arguments Returned {A} a.
Arguments Exited {A} code.
Arguments OutOfFuel {A}.

Section Main.
Context {C : Type} `{GreetingServiceClient C}.

Definition M (A : Type) : Type := C -> outcome A * C * list event.

Definition ret {A : Type} (a : A) : M A := fun c => (Returned a, c, []).

Definition bind {A B : Type} (m : M A) (k : A -> M B) : M B :=
  fun c =>
    let '(o, c1, t1) := m c in
    match o with
    | Returned a =>
        let '(o2, c2, t2) := k a c1 in (o2, c2, (t1 ++ t2)%list)
    | Exited code => (Exited code, c1, t1)
    | OutOfFuel => (OutOfFuel, c1, t1)
    end.

Definition emit (ev : event) : M unit := fun c => (Returned tt, c, [ev]).

Definition log_Println (line : string) : M unit := emit (EvLog line).

Definition fmt_Println (line : string) : M unit := emit (EvPrint (line ++ nl)).

Definition fmt_Printf (text : string) : M unit := emit (EvPrint text).

(** [log.Fatalf]: write the line, then [os.Exit(1)]; deferred calls do
    not run. *)
Definition log_Fatalf {A : Type} (line : string) : M A :=
  fun c => (Exited 1, c, [EvLog line; EvExit 1]).

Definition NewClient (target : string) : M (option error) :=
  fun c =>
    let '(err, c') := grpc_NewClient target c in
    (Returned err, c', [EvNewClient target err]).

Definition call_SayHello (ctx : Context) (req : option HelloRequest)
  : M (option HelloResponse * option error) :=
  fun c =>
    let '((response, err), c') := client_SayHello ctx req c in
    (Returned (response, err), c', [EvSayHello ctx req response err]).

Definition call_SayHelloMultiple (ctx : Context) (req : option HelloRequest)
  : M (option error) :=
  fun c =>
    let '(err, c') := client_SayHelloMultiple ctx req c in
    (Returned err, c', [EvSayHelloMultiple ctx req err]).

Definition Recv : M (option HelloResponse * option error) :=
  fun c =>
    let '((response, err), c') := stream_Recv c in
    (Returned (response, err), c', [EvRecv response err]).

Definition cancel : M unit :=
  fun c => (Returned tt, ctx_cancel c, [EvCancel]).

Definition Close : M unit :=
  fun c => (Returned tt, conn_Close c, [EvClose]).

Definition out_of_fuel {A : Type} : M A := fun c => (OutOfFuel, c, []).

End Main.

Notation "x <- m ;; k" := (bind m (fun x => k))
  (at level 61, m at next level, right associativity).
Notation "m ;; k" := (bind m (fun _ => k))
  (at level 61, right associativity).

(** The line printed for a received item. *)
Definition received_line (response : option HelloResponse) : string :=
  "📨 Received: " ++ GetMessage response
  ++ " (Count: " ++ fmt_d (GetCount response) ++ ")" ++ nl.

Section Program.
Context {C : Type} `{GreetingServiceClient C}.

(** The receive loop of [main], [for { ... }]: nothing bounds the number
    of rounds, so the model takes fuel, one unit per round. *)
Fixpoint main_recv_loop (fuel : nat) : M (C := C) unit :=
  match fuel with
  | O => out_of_fuel
  | S fuel' =>
      r <- Recv ;;
      let '(response, err) := r in
      if is_EOF err then
        (* Stream has ended *)
        fmt_Println (nl ++ "✅ Streaming complete!")     (* break *)
      else
        match err with
        | Some e => log_Fatalf ("Error receiving stream: " ++ Error e)
        | None =>
            fmt_Printf (received_line response) ;;
            main_recv_loop fuel'
        end
  end.

Definition main (fuel : nat) : M (C := C) unit :=
  (* Connect to the gRPC server *)
  err <- NewClient "localhost:50051" ;;
  match err with
  | Some e => log_Fatalf ("Failed to connect: " ++ Error e)
  | None => ret tt
  end ;;
  log_Println "🚀 gRPC Client started..." ;;
  log_Println ("=" ++ zero_bytes 50 ++ "=") ;;
  (* Example 1: Simple unary RPC call *)
  fmt_Println (nl ++ "📞 Making simple SayHello call...") ;;
  let ctx := WithTimeout Background (5 * Second) in
  r <- call_SayHello ctx (Some {| Name := "Alice" |}) ;;
  let '(response, err) := r in
  match err with
  | Some e => log_Fatalf ("Error calling SayHello: " ++ Error e)
  | None => ret tt
  end ;;
  fmt_Printf ("✅ Response: " ++ GetMessage response ++ nl) ;;
  fmt_Printf ("   Count: " ++ fmt_d (GetCount response) ++ nl) ;;
  (* Example 2: Server streaming RPC call *)
  fmt_Println (nl ++ "📡 Making streaming SayHelloMultiple call...") ;;
  err <- call_SayHelloMultiple Background (Some {| Name := "Bob" |}) ;;
  match err with
  | Some e => log_Fatalf ("Error calling SayHelloMultiple: " ++ Error e)
  | None => ret tt
  end ;;
  (* Receive streaming responses *)
  main_recv_loop fuel ;;
  fmt_Println (nl ++ zero_bytes 50) ;;
  log_Println "✅ Client finished successfully!" ;;
  (* deferred calls, last registered first *)
  cancel ;;
  Close.

End Program.

(** A run of a piece of [main] is the triple of how it ended, the state it
    left the substrate in, and its events. *)
Abbreviation ended run := (fst (fst run)).
Abbreviation events run := (snd run).

(** The events of one round of the receive loop that got an item: the
    receive, then the line printed for the item. *)
Definition item_round (response : option HelloResponse) : list event :=
  [EvRecv response None; EvPrint (received_line response)].

(** What went to standard output in a trace, in order. *)
Fixpoint printed (tr : list event) : list string :=
  match tr with
  | [] => []
  | EvPrint text :: tr' => text :: printed tr'
  | _ :: tr' => printed tr'
  end.

(** What [main] has done when the unary call is about to return. *)
Definition before_unary_call : list event :=
  [EvNewClient "localhost:50051" None;
   EvLog "🚀 gRPC Client started...";
   EvLog ("=" ++ zero_bytes 50 ++ "=");
   EvPrint (nl ++ "📞 Making simple SayHello call..." ++ nl)].

(** What [main] does between the return of the unary call and the return of
    the streaming call. *)
Definition between_calls (response : option HelloResponse) : list event :=
  [EvPrint ("✅ Response: " ++ GetMessage response ++ nl);
   EvPrint ("   Count: " ++ fmt_d (GetCount response) ++ nl);
   EvPrint (nl ++ "📡 Making streaming SayHelloMultiple call..." ++ nl)].

End Client.

(** ** Concrete substrates: two streams and a loopback client *)
Module Substrates.
Import Go pb Server.

(** A stream that accepts every response and keeps what it was given. *)
Definition healthy : Type := list HelloResponse.

Definition healthy_stream : SayHelloMultipleServer healthy :=
  {| stream_Send := fun r delivered => (None, (delivered ++ [r])%list) |}.

(** A stream that accepts as many responses as its state says and then
    fails every send. *)
Definition flaky : Type := nat.

Definition flaky_stream : SayHelloMultipleServer flaky :=
  {| stream_Send := fun _ budget =>
       match budget with
       | O => (Some (Err "transport is closing"), O)
       | Datatypes.S budget' => (None, budget')
       end |}.

Definition Bob : option HelloRequest := Some {| Name := "Bob" |}.

(** A loopback substrate for the client: its calls reach the handlers of
    [Server] directly.  The state is the queue of responses the streaming
    handler has sent over a healthy stream and the client has not yet
    received; once the queue is empty the stream reports [io.EOF]. *)
Definition loopback : Type := list HelloResponse.

Definition loopback_client : Client.GreetingServiceClient loopback :=
  {| Client.grpc_NewClient := fun _ queue => (None, queue);
     Client.conn_Close := fun queue => queue;
     Client.ctx_cancel := fun queue => queue;
     Client.client_SayHello := fun ctx req queue =>
       (fst (SayHello mk_server ctx req), queue);
     Client.client_SayHelloMultiple := fun _ req _ =>
       (None,
        map fst (sent (events (SayHelloMultiple (H := healthy_stream)
                                 mk_server req []))));
     Client.stream_Recv := fun queue =>
       match queue with
       | [] => ((None, Some io_EOF), [])
       | r :: queue' => ((Some r, None), queue')
       end |}.

End Substrates.

(** ** server/main.go: [main] *)
Module ServerMain.
Import Go pb.

(** How [s.Serve(lis)] ends: it keeps serving for good, or it returns, with
    an error or (after a stop) with nil. *)
Inductive served : Type :=
| ServesOn
| Stopped (err : option error).

(** What the server process does that can be observed from outside, in
    order. *)
Inductive event : Type :=
| EvListen (network address : string) (err : option error)   (* net.Listen *)
| EvNewServer                                                (* grpc.NewServer *)
| EvRegister (srv : Server.server)       (* pb.RegisterGreetingServiceServer *)
| EvLog (line : string)                                      (* package log *)
| EvServe (res : served)                                     (* s.Serve *)
| EvExit (code : Z).                                         (* os.Exit *)

(** The network and the RPC substrate as the server's [main] sees them.
    [G] is their state. *)
Class Network (G : Type) : Type :=
  { net_Listen : string -> string -> G -> option error * G;
    server_Serve : G -> served * G }.

(** How a piece of [main] ends: it goes on with a value, the process has
    exited, or it stays in [Serve] for good. *)
Inductive outcome (A : Type) : Type :=
| Returned (a : A)
| Exited (code : Z)
| Serving.
Arguments Returned {A} a.
Arguments Exited {A} code.
Arguments Serving {A}.

Section Main.
Context {G : Type} `{Network G}.

Definition M (A : Type) : Type := G -> outcome A * G * list event.

Definition ret {A : Type} (a : A) : M A := fun g => (Returned a, g, []).

Definition bind {A B : Type} (m : M A) (k : A -> M B) : M B :=
  fun g =>
    let '(o, g1, t1) := m g in
    match o with
    | Returned a =>
        let '(o2, g2, t2) := k a g1 in (o2, g2, (t1 ++ t2)%list)
    | Exited code => (Exited code, g1, t1)
    | Serving => (Serving, g1, t1)
    end.

Definition emit (ev : event) : M unit := fun g => (Returned tt, g, [ev]).

Definition log_Printf (line : string) : M unit := emit (EvLog line).

(** [log.Fatalf]: write the line, then [os.Exit(1)]. *)
Definition log_Fatalf {A : Type} (line : string) : M A :=
  fun g => (Exited 1, g, [EvLog line; EvExit 1]).

Definition Listen (network address : string) : M (option error) :=
  fun g =>
    let '(err, g') := net_Listen network address g in
    (Returned err, g', [EvListen network address err]).

Definition Serve : M (option error) :=
  fun g =>
    let '(res, g') := server_Serve g in
    match res with
    | ServesOn => (Serving, g', [EvServe res])
    | Stopped err => (Returned err, g', [EvServe res])
    end.

End Main.

Notation "x <- m ;; k" := (bind m (fun x => k))
  (at level 61, m at next level, right associativity).
Notation "m ;; k" := (bind m (fun _ => k))
  (at level 61, right associativity).

Section Program.
Context {G : Type} `{Network G}.

Definition main : M (G := G) unit :=
  (* Listen on TCP port 50051 *)
  err <- Listen "tcp" ":50051" ;;
  match err with
  | Some e => log_Fatalf ("Failed to listen: " ++ Error e)
  | None => ret tt
  end ;;
  (* Create a new gRPC server *)
  emit EvNewServer ;;
  (* Register our service implementation *)
  emit (EvRegister Server.mk_server) ;;
  log_Printf "✅ gRPC Server is running on port 50051..." ;;
  log_Printf "Waiting for client connections..." ;;
  (* Start serving requests *)
  err <- Serve ;;
  match err with
  | Some e => log_Fatalf ("Failed to serve: " ++ Error e)
  | None => ret tt
  end.

End Program.

Abbreviation ended run := (fst (fst run)).
Abbreviation events run := (snd run).

(** The lines logged in a trace, in order. *)
Fixpoint logged (tr : list event) : list string :=
  match tr with
  | [] => []
  | EvLog line :: tr' => line :: logged tr'
  | _ :: tr' => logged tr'
  end.

(** The results of the calls of [Serve] in a trace, in order. *)
Fixpoint serves (tr : list event) : list served :=
  match tr with
  | [] => []
  | EvServe res :: tr' => res :: serves tr'
  | _ :: tr' => serves tr'
  end.

(** The exit codes in a trace. *)
Fixpoint exits (tr : list event) : list Z :=
  match tr with
  | [] => []
  | EvExit code :: tr' => code :: exits tr'
  | _ :: tr' => exits tr'
  end.

(** A network on which [net.Listen] fails when the port is taken, and on
    which [Serve] ends the way the state says. *)
Record scripted : Type := { port_taken : bool; serve_ends : served }.

Definition scripted_network : Network scripted :=
  {| net_Listen := fun _ _ g =>
       (if port_taken g
        then Some (Err "listen tcp :50051: bind: address already in use")
        else None, g);
     server_Serve := fun g => (serve_ends g, g) |}.

End ServerMain.

(** ** More ways to read the traces of the handlers *)
Module ServerTraces.
Import Go pb Server.

(** The lines a handler logged, in order. *)
Fixpoint logged (tr : list event) : list string :=
  match tr with
  | [] => []
  | EvLog line :: tr' => line :: logged tr'
  | _ :: tr' => logged tr'
  end.

(** Whether a call of [stream.Send] returned nil. *)
Definition accepted (x : HelloResponse * option error) : bool :=
  match snd x with
  | None => true
  | Some _ => false
  end.

(** The state of the substrate a run ends in. *)
Abbreviation state run := (snd (fst run)).

(** The line logged in round [i] of the streaming loop after its send. *)
Definition sent_line (req : option HelloRequest) (i : Z) : string :=
  "Sent streaming response #" ++ fmt_d i ++ " to " ++ GetName req.

(** The events of round [i] of the streaming loop when its send fails with
    [e]: the send and nothing else. *)
Definition failed_round (req : option HelloRequest) (i : Z) (e : error) : list event :=
  [EvSend (streaming_response req i) (Some e)].

Section Replay.
Context {S : Type} `{SayHelloMultipleServer S}.

(** Hands the responses to the stream one after the other, threading its
    state: what each call returned, and the state after the last. *)
Fixpoint replay (rs : list HelloResponse) (s : S)
  : list (HelloResponse * option error) * S :=
  match rs with
  | [] => ([], s)
  | r :: rs' =>
      let '(res, s1) := stream_Send r s in
      let '(l, s2) := replay rs' s1 in
      ((r, res) :: l, s2)
  end.

End Replay.

End ServerTraces.

(** ** More ways to read the traces of the client *)
Module ClientTraces.
Import Go pb Client.

(** The calls into the RPC substrate that a trace records, the deferred
    [cancel()] and [conn.Close()] included. *)
Inductive call : Type :=
| CallNewClient
| CallSayHello
| CallSayHelloMultiple
| CallRecv
| CallCancel
| CallClose.

Fixpoint calls (tr : list event) : list call :=
  match tr with
  | [] => []
  | EvNewClient _ _ :: tr' => CallNewClient :: calls tr'
  | EvSayHello _ _ _ _ :: tr' => CallSayHello :: calls tr'
  | EvSayHelloMultiple _ _ _ :: tr' => CallSayHelloMultiple :: calls tr'
  | EvRecv _ _ :: tr' => CallRecv :: calls tr'
  | EvCancel :: tr' => CallCancel :: calls tr'
  | EvClose :: tr' => CallClose :: calls tr'
  | _ :: tr' => calls tr'
  end.

(** Whether an event is a call into the substrate that returned a non-nil
    error ([io.EOF] included).  The deferred calls return nothing that
    [main] looks at. *)
Definition failure (ev : event) : bool :=
  match ev with
  | EvNewClient _ (Some _) => true
  | EvSayHello _ _ _ (Some _) => true
  | EvSayHelloMultiple _ _ (Some _) => true
  | EvRecv _ (Some _) => true
  | _ => false
  end.

(** The calls into the substrate made after the first call that returned a
    non-nil error. *)
Fixpoint calls_after_failure (tr : list event) : list call :=
  match tr with
  | [] => []
  | ev :: tr' => if failure ev then calls tr' else calls_after_failure tr'
  end.

(** The deferred calls that ran in a trace, in order. *)
Fixpoint deferred (tr : list event) : list event :=
  match tr with
  | [] => []
  | EvCancel :: tr' => EvCancel :: deferred tr'
  | EvClose :: tr' => EvClose :: deferred tr'
  | _ :: tr' => deferred tr'
  end.

(** The exit codes in a trace. *)
Fixpoint exits (tr : list event) : list Z :=
  match tr with
  | [] => []
  | EvExit code :: tr' => code :: exits tr'
  | _ :: tr' => exits tr'
  end.

(** The contexts and requests of the unary calls in a trace. *)
Fixpoint unary_calls (tr : list event) : list (Context * option HelloRequest) :=
  match tr with
  | [] => []
  | EvSayHello ctx req _ _ :: tr' => (ctx, req) :: unary_calls tr'
  | _ :: tr' => unary_calls tr'
  end.

(** The contexts and requests of the streaming calls in a trace. *)
Fixpoint streaming_calls (tr : list event) : list (Context * option HelloRequest) :=
  match tr with
  | [] => []
  | EvSayHelloMultiple ctx req _ :: tr' => (ctx, req) :: streaming_calls tr'
  | _ :: tr' => streaming_calls tr'
  end.

(** The traces of the receive loop, with the way each ends: rounds that got
    an item, then [io.EOF], another error, or no fuel. *)
Inductive loop_trace : outcome unit -> list event -> Prop :=
| loop_no_fuel : loop_trace OutOfFuel []
| loop_eof (r : option HelloResponse) :
    loop_trace (Returned tt)
      [EvRecv r (Some io_EOF); EvPrint (nl ++ "✅ Streaming complete!" ++ nl)]
| loop_error (r : option HelloResponse) (e : error) :
    e <> io_EOF ->
    loop_trace (Exited 1)
      [EvRecv r (Some e); EvLog ("Error receiving stream: " ++ Error e); EvExit 1]
| loop_item (r : option HelloResponse) (o : outcome unit) (tr : list event) :
    loop_trace o tr ->
    loop_trace o (EvRecv r None :: EvPrint (received_line r) :: tr).

(** What [main] has done when the receive loop starts. *)
Definition setup (response : option HelloResponse) : list event :=
  (before_unary_call
     ++ EvSayHello {| timeout := Some 5000000000 |} (Some {| Name := "Alice" |})
          response None
     :: between_calls response
     ++ [EvSayHelloMultiple {| timeout := None |} (Some {| Name := "Bob" |}) None])%list.

(** What [main] does after the receive loop. *)
Definition wrap_up : list event :=
  [EvPrint (nl ++ zero_bytes 50 ++ nl);
   EvLog "✅ Client finished successfully!";
   EvCancel; EvClose].

(** The traces of [main], with the way each ends. *)
Inductive main_trace : outcome unit -> list event -> Prop :=
| main_connect_failed (e : error) :
    main_trace (Exited 1)
      [EvNewClient "localhost:50051" (Some e);
       EvLog ("Failed to connect: " ++ Error e);
       EvExit 1]
| main_unary_failed (response : option HelloResponse) (e : error) :
    main_trace (Exited 1)
      (before_unary_call
         ++ [EvSayHello {| timeout := Some 5000000000 |} (Some {| Name := "Alice" |})
               response (Some e);
             EvLog ("Error calling SayHello: " ++ Error e);
             EvExit 1])%list
| main_streaming_failed (response : option HelloResponse) (e : error) :
    main_trace (Exited 1)
      (before_unary_call
         ++ EvSayHello {| timeout := Some 5000000000 |} (Some {| Name := "Alice" |})
              response None
         :: between_calls response
         ++ [EvSayHelloMultiple {| timeout := None |} (Some {| Name := "Bob" |}) (Some e);
             EvLog ("Error calling SayHelloMultiple: " ++ Error e);
             EvExit 1])%list
| main_loop_returned (response : option HelloResponse) (tr : list event) :
    loop_trace (Returned tt) tr ->
    main_trace (Returned tt) (setup response ++ tr ++ wrap_up)%list
| main_loop_exited (response : option HelloResponse) (code : Z) (tr : list event) :
    loop_trace (Exited code) tr ->
    main_trace (Exited code) (setup response ++ tr)%list
| main_loop_no_fuel (response : option HelloResponse) (tr : list event) :
    loop_trace OutOfFuel tr ->
    main_trace OutOfFuel (setup response ++ tr)%list.

Section Streams.
Context {C : Type} `{GreetingServiceClient C}.

(** [delivers c items last c']: from state [c] on, [stream.Recv] returns
    the [items] one by one with a nil error, and then [last], a result with
    a non-nil error, leaving the substrate in state [c']. *)
Inductive delivers : C -> list (option HelloResponse)
                     -> option HelloResponse * error -> C -> Prop :=
| delivers_last (c c' : C) (r : option HelloResponse) (e : error) :
    stream_Recv c = ((r, Some e), c') ->
    delivers c [] (r, e) c'
| delivers_item (c c1 c' : C) (r : option HelloResponse)
    (items : list (option HelloResponse)) (last : option HelloResponse * error) :
    stream_Recv c = ((r, None), c1) ->
    delivers c1 items last c' ->
    delivers c (r :: items) last c'.

(** What [stream.Recv] returns, call after call from state [c]: at most
    [fuel] results, none after the first one with a non-nil error; and the
    state the last call left. *)
Fixpoint received (fuel : nat) (c : C)
  : list (option HelloResponse * option error) * C :=
  match fuel with
  | O => ([], c)
  | S fuel' =>
      let '((response, err), c1) := stream_Recv c in
      match err with
      | Some _ => ([(response, err)], c1)
      | None =>
          let '(rest, c2) := received fuel' c1 in
          ((response, None) :: rest, c2)
      end
  end.

(** What the receive loop does with one result of [stream.Recv]: an item is
    printed, [io.EOF] is answered with the completion line, any other error
    with a log line and the exit. *)
Definition handled (x : option HelloResponse * option error) : list event :=
  match snd x with
  | None => item_round (fst x)
  | Some io_EOF =>
      [EvRecv (fst x) (Some io_EOF);
       EvPrint (nl ++ "✅ Streaming complete!" ++ nl)]
  | Some (Err msg) =>
      [EvRecv (fst x) (Some (Err msg));
       EvLog ("Error receiving stream: " ++ msg);
       EvExit 1]
  end.

(** How the receive loop ends on a result with a non-nil error. *)
Definition ending (last : option HelloResponse * error) : outcome unit * list event :=
  match snd last with
  | io_EOF =>
      (Returned tt,
       [EvRecv (fst last) (Some io_EOF);
        EvPrint (nl ++ "✅ Streaming complete!" ++ nl)])
  | Err msg =>
      (Exited 1,
       [EvRecv (fst last) (Some (Err msg));
        EvLog ("Error receiving stream: " ++ msg);
        EvExit 1])
  end.

End Streams.

End ClientTraces.

(** * Properties of the server handlers *)
Module ServerSpec.
Import Go pb Server.

Section Runs.
Context {S : Type} `{SayHelloMultipleServer S}.

(** The shape of every run of the loop from round [i]: some rounds whose
    send succeeded, then either the end of the loop or one failed send
    and nothing after it. *)
Lemma loop_run (req : option HelloRequest) (n : nat) :
  forall (i : Z) (s : S),
    rounds_left i = n ->
    exists k : nat,
      match returned (SayHelloMultiple_loop req i s) with
      | None =>
          k = n /\ events (SayHelloMultiple_loop req i s) = rounds req i k
      | Some e =>
          (k < n)%nat /\
          events (SayHelloMultiple_loop req i s) =
            (rounds req i k
               ++ [EvSend (streaming_response req (i + Z.of_nat k)) (Some e)])%list
      end.
Proof.
  induction n as [|n IH]; intros i s Hn;
    rewrite SayHelloMultiple_loop_equation_1;
    destruct (Z_le_dec i 5) as [Hle|Hgt];
    try (unfold rounds_left in Hn; lia).
  - exists O. split; reflexivity.
  - cbv [SayHelloMultiple_loop_unfold_clause_1 bind Send].
    destruct (stream_Send (streaming_response req i) s) as [[e|] s1] eqn:Hsend.
    + exists O. cbn. rewrite Z.add_0_r. split; [lia | reflexivity].
    + cbv [log_Printf time_Sleep].
      destruct (IH (i + 1) s1) as [k Hk]; [unfold rounds_left in *; lia|].
      destruct (SayHelloMultiple_loop req (i + 1) s1) as [[err s2] tr].
      cbn [fst snd] in *. exists (Datatypes.S k).
      destruct err as [e|].
      * destruct Hk as [Hlt ->]. split; [lia|].
        replace (i + Z.of_nat (Datatypes.S k)) with (i + 1 + Z.of_nat k) by lia.
        reflexivity.
      * destruct Hk as [-> ->]. split; reflexivity.
Qed.

(** The same for the whole handler: its log line comes first, and the
    loop starts at round 1 with five rounds to go. *)
Lemma handler_run (srv : server) (req : option HelloRequest) (s : S) :
  exists k : nat,
    match returned (SayHelloMultiple srv req s) with
    | None =>
        k = 5%nat /\
        events (SayHelloMultiple srv req s) =
          EvLog ("Received streaming request from: " ++ GetName req)
            :: rounds req 1 k
    | Some e =>
        (k < 5)%nat /\
        events (SayHelloMultiple srv req s) =
          (EvLog ("Received streaming request from: " ++ GetName req)
             :: rounds req 1 k
             ++ [EvSend (streaming_response req (1 + Z.of_nat k)) (Some e)])%list
    end.
Proof.
  destruct (loop_run req 5 1 s eq_refl) as [k Hk]. exists k.
  unfold SayHelloMultiple, bind, log_Printf.
  destruct (SayHelloMultiple_loop req 1 s) as [[err s'] tr].
  cbn [fst snd] in *.
  destruct err as [e|]; destruct Hk as [Hk ->]; split; auto.
Qed.

Lemma sent_app (a b : list event) : sent (a ++ b) = (sent a ++ sent b)%list.
Proof.
  induction a as [|ev a IH]; [reflexivity|].
  destruct ev; cbn; rewrite IH; reflexivity.
Qed.

(** Successful rounds hand over the responses of rounds [i], [i + 1],
    ... and each send returned nil. *)
Lemma sent_rounds (req : option HelloRequest) (k : nat) :
  forall i : Z,
    sent (rounds req i k) =
    map (fun j => (streaming_response req (i + Z.of_nat j), None)) (seq 0 k).
Proof.
  induction k as [|k IH]; intro i; [reflexivity|].
  cbn [rounds round app sent]. rewrite IH.
  cbn [seq map]. rewrite Z.add_0_r. f_equal.
  rewrite <- seq_shift, map_map. apply map_ext.
  intro j. do 2 f_equal. lia.
Qed.

(** What every run handed to [stream.Send]: the responses of rounds 1 to
    [m] for some [m] between 1 and 5; all five when the handler returned
    nil. *)
Lemma responses_run (srv : server) (req : option HelloRequest) (s : S) :
  exists m : nat,
    (1 <= m <= 5)%nat /\
    (returned (SayHelloMultiple srv req s) = None -> m = 5%nat) /\
    map fst (sent (events (SayHelloMultiple srv req s))) =
    map (fun j => streaming_response req (1 + Z.of_nat j)) (seq 0 m).
Proof.
  destruct (handler_run srv req s) as [k Hk].
  destruct (returned (SayHelloMultiple srv req s)) as [e|].
  - destruct Hk as [Hlt ->]. exists (Datatypes.S k).
    split; [lia|]. split; [discriminate|].
    cbn [sent]. rewrite sent_app, sent_rounds, map_app, map_map.
    rewrite seq_S, map_app. reflexivity.
  - destruct Hk as [-> ->]. exists 5%nat.
    split; [lia|]. split; [reflexivity|].
    cbn [sent]. rewrite sent_rounds, map_map. reflexivity.
Qed.

Lemma streaming_response_name (req1 req2 : option HelloRequest) (i : Z) :
  GetName req1 = GetName req2 ->
  streaming_response req1 i = streaming_response req2 i.
Proof. unfold streaming_response. intros ->. reflexivity. Qed.

(** A run in which no send failed went through all five rounds and
    returned nil. *)
Lemma clean_run (srv : server) (req : option HelloRequest) (s : S) :
  Forall (fun x => snd x = None) (sent (events (SayHelloMultiple srv req s))) ->
  returned (SayHelloMultiple srv req s) = None /\
  events (SayHelloMultiple srv req s) =
    EvLog ("Received streaming request from: " ++ GetName req)
      :: rounds req 1 5.
Proof.
  intro Hok.
  destruct (handler_run srv req s) as [k Hk].
  destruct (returned (SayHelloMultiple srv req s)) as [e|].
  - exfalso. destruct Hk as [_ Htr]. rewrite Htr in Hok.
    cbn [sent] in Hok. rewrite sent_app in Hok.
    apply Forall_app in Hok. destruct Hok as [_ Hlast].
    inversion Hlast as [|x l Hx _]. discriminate Hx.
  - destruct Hk as [-> ->]. split; reflexivity.
Qed.

(** C1. For every request, the unary [SayHello] returns a nil error and a
    response whose message is "Hello, {name}! Welcome to gRPC with Go!",
    with the request's name in the place of {name}, and whose count is 1;
    for the name "Alice" the message is
    "Hello, Alice! Welcome to gRPC with Go!" and the count is 1. *)
Theorem SayHello_response (srv : server) (ctx : Context)
    (req : option HelloRequest) :
  fst (SayHello srv ctx req) =
    (Some {| Message := "Hello, " ++ GetName req ++ "! Welcome to gRPC with Go!";
             Count := 1 |},
     None)
  /\ fst (SayHello srv ctx (Some {| Name := "Alice" |})) =
    (Some {| Message := "Hello, Alice! Welcome to gRPC with Go!";
             Count := 1 |},
     None).
Proof. split; reflexivity. Qed.

(** C3. If the i-th send of a run of [SayHelloMultiple] fails, then i is
    at most 5, the handler returns exactly that error, the failed send is
    the last thing it does, and so no item after the i-th is sent. *)
Theorem send_failure_aborts (srv : server) (req : option HelloRequest)
    (s : S) (i : nat) (r : HelloResponse) (e : error) :
  (1 <= i)%nat ->
  nth_error (sent (events (SayHelloMultiple srv req s))) (i - 1) = Some (r, Some e) ->
  (i <= 5)%nat /\
  r = streaming_response req (Z.of_nat i) /\
  returned (SayHelloMultiple srv req s) = Some e /\
  length (sent (events (SayHelloMultiple srv req s))) = i /\
  exists before,
    events (SayHelloMultiple srv req s) = (before ++ [EvSend r (Some e)])%list.
Proof.
  intros Hi Hnth.
  destruct (handler_run srv req s) as [k Hk].
  destruct (returned (SayHelloMultiple srv req s)) as [e0|].
  - destruct Hk as [Hlt Htr]. rewrite Htr in *. clear Htr.
    cbn [sent] in *. rewrite sent_app, sent_rounds in *. cbn [sent] in *.
    assert (Hlen : length (map (fun j : nat =>
               (streaming_response req (1 + Z.of_nat j), @None error)) (seq 0 k)) = k)
      by (rewrite length_map, length_seq; reflexivity).
    destruct (Nat.lt_ge_cases (i - 1) k) as [Hbefore|Hafter].
    + rewrite nth_error_app1 in Hnth by (rewrite Hlen; lia).
      apply nth_error_In, in_map_iff in Hnth.
      destruct Hnth as [j [Hj _]]. discriminate Hj.
    + rewrite nth_error_app2 in Hnth by (rewrite Hlen; lia). rewrite Hlen in Hnth.
      destruct (i - 1 - k)%nat as [|d] eqn:Hd.
      * cbn [nth_error] in Hnth. injection Hnth as <- <-.
        assert (i = Datatypes.S k) by lia. subst i.
        replace (Z.of_nat (Datatypes.S k)) with (1 + Z.of_nat k) by lia.
        split; [lia|]. split; [reflexivity|]. split; [reflexivity|].
        split; [rewrite length_app, Hlen; cbn; lia|].
        eexists. rewrite app_comm_cons. reflexivity.
      * destruct d; discriminate Hnth.
  - destruct Hk as [-> Htr]. rewrite Htr in Hnth.
    cbn [sent] in Hnth. rewrite sent_rounds in Hnth.
    apply nth_error_In, in_map_iff in Hnth.
    destruct Hnth as [j [Hj _]]. discriminate Hj.
Qed.

(** C5, as amended.  A request with the empty name is accepted by
    [SayHello] (the error is nil), and the message of the response is
    "Hello, ! Welcome to gRPC with Go!": it begins with "Hello, !" and
    goes on with the rest of the greeting. *)
Theorem SayHello_empty_name (srv : server) (ctx : Context) :
  fst (SayHello srv ctx (Some {| Name := "" |})) =
    (Some {| Message := "Hello, ! Welcome to gRPC with Go!"; Count := 1 |},
     None)
  /\ prefix "Hello, !"
       (GetMessage (fst (fst (SayHello srv ctx (Some {| Name := "" |}))))) = true.
Proof. split; reflexivity. Qed.

(** C6. The count of the unary response is 1.  Within one streaming call,
    whatever the stream does, the counts handed to it start at 1 and
    each is strictly greater than the one before. *)
Theorem count_invariant (srv : server) (ctx : Context)
    (req : option HelloRequest) (s : S) :
  GetCount (fst (fst (SayHello srv ctx req))) = 1 /\
  hd_error (map snd (emitted (events (SayHelloMultiple srv req s)))) = Some 1 /\
  Sorted Z.lt (map snd (emitted (events (SayHelloMultiple srv req s)))).
Proof.
  split; [reflexivity|].
  destruct (responses_run srv req s) as [m [Hm [_ Hresp]]].
  unfold emitted. rewrite Hresp, !map_map.
  destruct m as [|[|[|[|[|[|m]]]]]]; try lia;
    vm_compute; (split; [reflexivity | repeat constructor]).
Qed.

(** C7. The unary [SayHello] depends on nothing but the name of the
    request: two calls with equal names, on any servers and under any
    contexts, give the same message, and indeed the same response,
    error and log line. *)
Theorem SayHello_deterministic (srv1 srv2 : server) (ctx1 ctx2 : Context)
    (req1 req2 : option HelloRequest) :
  GetName req1 = GetName req2 ->
  GetMessage (fst (fst (SayHello srv1 ctx1 req1))) =
    GetMessage (fst (fst (SayHello srv2 ctx2 req2)))
  /\ SayHello srv1 ctx1 req1 = SayHello srv2 ctx2 req2.
Proof.
  intro Hname. unfold SayHello. rewrite Hname. split; reflexivity.
Qed.

(** C9, as amended.  In a run of [SayHelloMultiple] in which no send
    fails, each of the five sends, the last one included, is followed by
    exactly one sleep of one second: one before each next send, and one
    between the fifth send and the return that ends the stream, which is
    the last thing the handler does. *)
Theorem sleep_after_every_send (srv : server) (req : option HelloRequest)
    (s : S) :
  Forall (fun x => snd x = None) (sent (events (SayHelloMultiple srv req s))) ->
  returned (SayHelloMultiple srv req s) = None /\
  pauses (events (SayHelloMultiple srv req s)) =
    [[Second]; [Second]; [Second]; [Second]; [Second]] /\
  exists before,
    events (SayHelloMultiple srv req s) =
      (before ++ [EvSend (streaming_response req 5) None;
                  EvLog ("Sent streaming response #5 to " ++ GetName req);
                  EvSleep Second])%list.
Proof.
  intro Hok. destruct (clean_run srv req s Hok) as [-> ->].
  split; [reflexivity|]. split; [reflexivity|].
  exists (EvLog ("Received streaming request from: " ++ GetName req)
            :: rounds req 1 4).
  reflexivity.
Qed.

End Runs.

(** C10, as amended.  What [SayHelloMultiple] emits depends on nothing but
    the name of the request, the round, and how far the stream lets the
    handler get: for two runs on requests with equal names, on any two
    streams, the (message, count) pairs handed to the streams agree at
    every position that both runs reach, and when both runs return nil
    (no send failed) the two sequences are identical. *)
Theorem SayHelloMultiple_deterministic {S1 S2 : Type}
    {stream1 : SayHelloMultipleServer S1} {stream2 : SayHelloMultipleServer S2}
    (srv1 srv2 : server) (req1 req2 : option HelloRequest) (s1 : S1) (s2 : S2) :
  GetName req1 = GetName req2 ->
  (forall (k : nat) (a b : string * Z),
      nth_error (emitted (events (SayHelloMultiple srv1 req1 s1))) k = Some a ->
      nth_error (emitted (events (SayHelloMultiple srv2 req2 s2))) k = Some b ->
      a = b)
  /\ (returned (SayHelloMultiple srv1 req1 s1) = None ->
      returned (SayHelloMultiple srv2 req2 s2) = None ->
      emitted (events (SayHelloMultiple srv1 req1 s1)) =
      emitted (events (SayHelloMultiple srv2 req2 s2))).
Proof.
  intro Hname.
  destruct (responses_run srv1 req1 s1) as [m1 [_ [Hfull1 Hresp1]]].
  destruct (responses_run srv2 req2 s2) as [m2 [_ [Hfull2 Hresp2]]].
  rewrite (map_ext _ (fun j => streaming_response req2 (1 + Z.of_nat j)))
    in Hresp1 by (intro j; apply streaming_response_name, Hname).
  unfold emitted. rewrite Hresp1, Hresp2, !map_map. split.
  - intros k a b Ha Hb.
    rewrite nth_error_map, nth_error_seq in Ha, Hb.
    destruct (k <? m1)%nat; [|discriminate Ha].
    destruct (k <? m2)%nat; [|discriminate Hb].
    congruence.
  - intros Hnil1 Hnil2. rewrite (Hfull1 Hnil1), (Hfull2 Hnil2). reflexivity.
Qed.

(** *** The theorems at concrete inputs *)
Import Substrates.

Lemma send_failure_aborts_witness :
  (1 <= 3)%nat /\
  nth_error (sent (events (SayHelloMultiple (H := flaky_stream) mk_server Bob 2%nat)))
    (3 - 1)
  = Some ({| Message := "Hello #3, Bob! Streaming response 3 of 5"; Count := 3 |},
          Some (Err "transport is closing")) /\
  returned (SayHelloMultiple (H := flaky_stream) mk_server Bob 2%nat)
  = Some (Err "transport is closing") /\
  length (sent (events (SayHelloMultiple (H := flaky_stream) mk_server Bob 2%nat)))
  = 3%nat.
Proof.
  assert (Hi : (1 <= 3)%nat) by lia.
  assert (Hnth :
    nth_error (sent (events (SayHelloMultiple (H := flaky_stream) mk_server Bob 2%nat)))
      (3 - 1)
    = Some ({| Message := "Hello #3, Bob! Streaming response 3 of 5"; Count := 3 |},
            Some (Err "transport is closing")))
    by (vm_compute; reflexivity).
  destruct (send_failure_aborts (H := flaky_stream) mk_server Bob 2%nat 3 _ _ Hi Hnth)
    as [_ [_ [Hret [Hlen _]]]].
  repeat split; assumption.
Defined.

(** C5, as stated, fails: the message for the empty name is not the bare
    "Hello, !". *)
Lemma SayHello_empty_name_not_bare :
  GetMessage (fst (fst (SayHello mk_server Background (Some {| Name := "" |}))))
  <> "Hello, !".
Proof. cbn. discriminate. Qed.

Lemma SayHello_deterministic_witness :
  GetName (Some {| Name := "Alice" |}) = GetName (Some {| Name := "Alice" |}) /\
  GetMessage (fst (fst (SayHello mk_server Background (Some {| Name := "Alice" |}))))
  = GetMessage (fst (fst (SayHello mk_server (WithTimeout Background (5 * Second))
                            (Some {| Name := "Alice" |})))).
Proof.
  split; [reflexivity|].
  exact (proj1 (SayHello_deterministic mk_server mk_server
                  Background (WithTimeout Background (5 * Second))
                  (Some {| Name := "Alice" |}) (Some {| Name := "Alice" |})
                  eq_refl)).
Defined.

(** C9, as stated, fails: with a stream that accepts every send, the fifth
    send is followed by a sleep as well, so the sleeps are not only between
    the sends. *)
Lemma sleep_after_fifth_send :
  pauses (events (SayHelloMultiple (H := healthy_stream) mk_server Bob []))
  <> [[Second]; [Second]; [Second]; [Second]; []].
Proof. vm_compute. discriminate. Qed.

Lemma sleep_after_every_send_witness :
  Forall (fun x => snd x = None)
    (sent (events (SayHelloMultiple (H := healthy_stream) mk_server Bob []))) /\
  pauses (events (SayHelloMultiple (H := healthy_stream) mk_server Bob [])) =
    [[Second]; [Second]; [Second]; [Second]; [Second]].
Proof.
  assert (Hok : Forall (fun x => snd x = None)
            (sent (events (SayHelloMultiple (H := healthy_stream) mk_server Bob []))))
    by (vm_compute; repeat constructor).
  split; [exact Hok|].
  exact (proj1 (proj2 (sleep_after_every_send (H := healthy_stream) mk_server Bob [] Hok))).
Defined.

Lemma SayHelloMultiple_deterministic_witness :
  GetName Bob = GetName (Some {| Name := "Bob" |}) /\
  emitted (events (SayHelloMultiple (H := healthy_stream) mk_server Bob [])) =
  emitted (events (SayHelloMultiple (H := flaky_stream) mk_server
                     (Some {| Name := "Bob" |}) 7%nat)).
Proof.
  split; [reflexivity|].
  apply (proj2 (SayHelloMultiple_deterministic
                  (stream1 := healthy_stream) (stream2 := flaky_stream)
                  mk_server mk_server Bob (Some {| Name := "Bob" |}) [] 7%nat
                  eq_refl)); vm_compute; reflexivity.
Defined.

End ServerSpec.

(** * Properties of the client *)
Module ClientSpec.
Import Go pb Client.

(** Unfolds the monad of [main] down to the calls into the substrate. *)
Ltac step_main :=
  unfold main, bind, NewClient, call_SayHello, call_SayHelloMultiple,
    log_Println, fmt_Println, fmt_Printf, log_Fatalf, cancel, Close, emit, ret.

Section Runs.
Context {C : Type} `{GreetingServiceClient C}.

(** Fuel only bounds the model: a run that did not run out of fuel is the
    same with any larger amount. *)
Lemma recv_loop_fuel (fuel extra : nat) :
  forall c : C,
    ended (main_recv_loop fuel c) <> OutOfFuel ->
    main_recv_loop (fuel + extra) c = main_recv_loop fuel c.
Proof.
  induction fuel as [|fuel IH]; intros c Hended.
  - exfalso. apply Hended. reflexivity.
  - cbn [main_recv_loop Nat.add] in *.
    unfold bind, Recv, fmt_Printf, emit in *.
    destruct (stream_Recv c) as [[response err] c1].
    destruct err as [[|msg]|]; cbn [is_EOF] in *; cbv beta iota zeta in *;
      try reflexivity.
    rewrite IH; [reflexivity|].
    destruct (main_recv_loop fuel c1) as [[o c2] tr].
    destruct o; cbn [fst snd] in *; congruence.
Qed.

(** *** [main] around the loop *)

(** A failure to connect is fatal: no call is made. *)
Lemma main_failed_connect (fuel : nat) (c c1 : C) (e : error) :
  grpc_NewClient "localhost:50051" c = (Some e, c1) ->
  main fuel c =
    (Exited 1, c1,
     [EvNewClient "localhost:50051" (Some e);
      EvLog ("Failed to connect: " ++ Error e);
      EvExit 1]).
Proof. intro Hconn. step_main. rewrite Hconn. reflexivity. Qed.

(** The unary call is made under a context with a timeout of five seconds,
    and its failure is fatal. *)
Lemma main_failed_unary_call (fuel : nat) (c c1 c2 : C)
    (response : option HelloResponse) (e : error) :
  grpc_NewClient "localhost:50051" c = (None, c1) ->
  client_SayHello {| timeout := Some 5000000000 |} (Some {| Name := "Alice" |}) c1
    = ((response, Some e), c2) ->
  main fuel c =
    (Exited 1, c2,
     before_unary_call
       ++ [EvSayHello {| timeout := Some 5000000000 |} (Some {| Name := "Alice" |})
             response (Some e);
           EvLog ("Error calling SayHello: " ++ Error e);
           EvExit 1])%list.
Proof.
  intros Hconn Hcall. step_main. rewrite Hconn. cbv beta iota zeta.
  change (WithTimeout Background (5 * Second)) with {| timeout := Some 5000000000 |}.
  rewrite Hcall. reflexivity.
Qed.

(** The streaming call is made under the background context, which has no
    timeout, and its failure is fatal. *)
Lemma main_failed_streaming_call (fuel : nat) (c c1 c2 c3 : C)
    (response : option HelloResponse) (e : error) :
  grpc_NewClient "localhost:50051" c = (None, c1) ->
  client_SayHello {| timeout := Some 5000000000 |} (Some {| Name := "Alice" |}) c1
    = ((response, None), c2) ->
  client_SayHelloMultiple {| timeout := None |} (Some {| Name := "Bob" |}) c2
    = (Some e, c3) ->
  main fuel c =
    (Exited 1, c3,
     before_unary_call
       ++ EvSayHello {| timeout := Some 5000000000 |} (Some {| Name := "Alice" |})
            response None
       :: between_calls response
       ++ [EvSayHelloMultiple {| timeout := None |} (Some {| Name := "Bob" |}) (Some e);
           EvLog ("Error calling SayHelloMultiple: " ++ Error e);
           EvExit 1])%list.
Proof.
  intros Hconn Hcall Hstream. step_main. rewrite Hconn. cbv beta iota zeta.
  change (WithTimeout Background (5 * Second)) with {| timeout := Some 5000000000 |}.
  rewrite Hcall. cbv beta iota zeta.
  change Background with {| timeout := None |}.
  rewrite Hstream. reflexivity.
Qed.

(** Once both calls have returned without error, [main] runs the receive
    loop.  When the loop is left normally, [main] prints its last lines, runs
    its deferred calls and returns; when the process exits in the loop,
    nothing follows: no line, no deferred call. *)
Lemma main_receives (fuel : nat) (c c1 c2 c3 : C)
    (response : option HelloResponse) :
  grpc_NewClient "localhost:50051" c = (None, c1) ->
  client_SayHello {| timeout := Some 5000000000 |} (Some {| Name := "Alice" |}) c1
    = ((response, None), c2) ->
  client_SayHelloMultiple {| timeout := None |} (Some {| Name := "Bob" |}) c2
    = (None, c3) ->
  let setup :=
    (before_unary_call
       ++ EvSayHello {| timeout := Some 5000000000 |} (Some {| Name := "Alice" |})
            response None
       :: between_calls response
       ++ [EvSayHelloMultiple {| timeout := None |} (Some {| Name := "Bob" |}) None])%list in
  match ended (main_recv_loop fuel c3) with
  | Returned _ =>
      ended (main fuel c) = Returned tt /\
      events (main fuel c) =
        (setup ++ events (main_recv_loop fuel c3)
           ++ [EvPrint (nl ++ zero_bytes 50 ++ nl);
               EvLog "✅ Client finished successfully!";
               EvCancel; EvClose])%list
  | Exited code =>
      ended (main fuel c) = Exited code /\
      events (main fuel c) = (setup ++ events (main_recv_loop fuel c3))%list
  | OutOfFuel =>
      ended (main fuel c) = OutOfFuel /\
      events (main fuel c) = (setup ++ events (main_recv_loop fuel c3))%list
  end.
Proof.
  intros Hconn Hcall Hstream setup. subst setup. step_main.
  rewrite Hconn. cbv beta iota zeta.
  change (WithTimeout Background (5 * Second)) with {| timeout := Some 5000000000 |}.
  rewrite Hcall. cbv beta iota zeta.
  change Background with {| timeout := None |}.
  rewrite Hstream. cbv beta iota zeta.
  destruct (main_recv_loop fuel c3) as [[o c4] tr].
  destruct o as [[]|code|]; cbn [fst snd]; split; reflexivity.
Qed.

End Runs.

(** The whole client against the two handlers, over the loopback
    substrate: [main] returns normally and prints the greeting for Alice
    and the five streamed greetings for Bob, in order. *)
Example main_over_loopback :
  ended (main (H := Substrates.loopback_client) 6 []) = Returned tt /\
  printed (events (main (H := Substrates.loopback_client) 6 [])) =
    [ nl ++ "📞 Making simple SayHello call..." ++ nl;
      "✅ Response: Hello, Alice! Welcome to gRPC with Go!" ++ nl;
      "   Count: 1" ++ nl;
      nl ++ "📡 Making streaming SayHelloMultiple call..." ++ nl;
      "📨 Received: Hello #1, Bob! Streaming response 1 of 5 (Count: 1)" ++ nl;
      "📨 Received: Hello #2, Bob! Streaming response 2 of 5 (Count: 2)" ++ nl;
      "📨 Received: Hello #3, Bob! Streaming response 3 of 5 (Count: 3)" ++ nl;
      "📨 Received: Hello #4, Bob! Streaming response 4 of 5 (Count: 4)" ++ nl;
      "📨 Received: Hello #5, Bob! Streaming response 5 of 5 (Count: 5)" ++ nl;
      nl ++ "✅ Streaming complete!" ++ nl;
      nl ++ zero_bytes 50 ++ nl ].
Proof. split; vm_compute; reflexivity. Qed.

End ClientSpec.

(** * More properties of the server handlers *)
Module ServerMore.
Import Go pb Server ServerTraces.

Lemma length_append (a b : string) :
  String.length (a ++ b) = (String.length a + String.length b)%nat.
Proof. induction a as [|ch a IH]; cbn; [reflexivity | rewrite IH; reflexivity]. Qed.

(** A common suffix can be cancelled. *)
Lemma append_same_suffix (suffix : string) :
  forall a b : string, a ++ suffix = b ++ suffix -> a = b.
Proof.
  induction a as [|ch a IH]; intros [|ch' b] Heq; cbn in Heq.
  - reflexivity.
  - exfalso. apply (f_equal String.length) in Heq. cbn in Heq.
    rewrite length_append in Heq. lia.
  - exfalso. apply (f_equal String.length) in Heq. cbn in Heq.
    rewrite length_append in Heq. lia.
  - injection Heq as -> Heq. f_equal. apply IH, Heq.
Qed.

Section Runs.
Context {S : Type} `{SayHelloMultipleServer S}.

Lemma loop_replays (req : option HelloRequest) (n : nat) :
  forall (i : Z) (s : S),
    rounds_left i = n ->
    (sent (events (SayHelloMultiple_loop req i s)),
     state (SayHelloMultiple_loop req i s)) =
    replay (map fst (sent (events (SayHelloMultiple_loop req i s)))) s.
Proof.
  induction n as [|n IH]; intros i s Hn;
    rewrite SayHelloMultiple_loop_equation_1;
    destruct (Z_le_dec i 5) as [Hle|Hgt];
    try (unfold rounds_left in Hn; lia).
  - reflexivity.
  - cbv [SayHelloMultiple_loop_unfold_clause_1 bind Send].
    destruct (stream_Send (streaming_response req i) s) as [[e|] s1] eqn:Hsend.
    + cbn [ret fst snd app sent map replay]. rewrite Hsend. reflexivity.
    + cbv [log_Printf time_Sleep].
      assert (Hleft : rounds_left (i + 1) = n) by (unfold rounds_left in *; lia).
      specialize (IH (i + 1) s1 Hleft).
      destruct (SayHelloMultiple_loop req (i + 1) s1) as [[err s2] tr].
      cbn [fst snd app sent map replay] in *.
      rewrite Hsend, <- IH. reflexivity.
Qed.

Lemma replay_fold (rs : list HelloResponse) :
  forall s : S,
    snd (replay rs s) = fold_left (fun st r => snd (stream_Send r st)) rs s.
Proof.
  induction rs as [|r rs IH]; intro s; [reflexivity|].
  cbn [replay fold_left]. destruct (stream_Send r s) as [res s1].
  cbn [snd]. rewrite <- IH. destruct (replay rs s1). reflexivity.
Qed.

Lemma replay_accepted (rs : list HelloResponse) :
  (forall r s0, fst (stream_Send r s0) = None) ->
  forall s : S, Forall (fun x => snd x = None) (fst (replay rs s)).
Proof.
  intro Hnever. induction rs as [|r rs IH]; intro s; [constructor|].
  cbn [replay]. specialize (Hnever r s). specialize (IH (snd (stream_Send r s))).
  destruct (stream_Send r s) as [res s1]. cbn [fst snd] in *. subst res.
  destruct (replay rs s1). constructor; [reflexivity | exact IH].
Qed.

(** The pauses and the log lines of successful rounds, whatever follows
    them, as long as it does not begin with a sleep or a log line. *)
Lemma pauses_rounds (req : option HelloRequest) (rest : list event) :
  sleeps_until_send rest = [] ->
  forall (k : nat) (i : Z),
    sleeps_until_send (rounds req i k ++ rest) = [] /\
    pauses (rounds req i k ++ rest) = (repeat [Second] k ++ pauses rest)%list.
Proof.
  intro Hrest. induction k as [|k IH]; intro i.
  - split; [exact Hrest | reflexivity].
  - destruct (IH (i + 1)) as [Hsleeps Hpauses].
    cbn [rounds round app sleeps_until_send pauses repeat].
    rewrite Hsleeps, Hpauses. split; reflexivity.
Qed.

Lemma logged_rounds (req : option HelloRequest) (rest : list event) (k : nat) :
  forall i : Z,
    logged (rounds req i k ++ rest) =
    (map (fun j => sent_line req (i + Z.of_nat j)) (seq 0 k) ++ logged rest)%list.
Proof.
  induction k as [|k IH]; intro i; [reflexivity|].
  cbn [rounds round app logged seq map]. rewrite IH, Z.add_0_r.
  change ("Sent streaming response #" ++ fmt_d i ++ " to " ++ GetName req)
    with (sent_line req i).
  do 2 f_equal.
  rewrite <- seq_shift, map_map. apply map_ext.
  intro j. f_equal. lia.
Qed.

(** Every run of the handler, in one piece: the log line for the request,
    [k] successful rounds, and then nothing (after five rounds, returning
    nil) or one failed round (after fewer, returning its error). *)
Lemma run_shape (srv : server) (req : option HelloRequest) (s : S) :
  exists (k : nat) (rest : list event),
    events (SayHelloMultiple srv req s) =
      EvLog ("Received streaming request from: " ++ GetName req)
        :: (rounds req 1 k ++ rest)%list /\
    ((returned (SayHelloMultiple srv req s) = None /\ k = 5%nat /\ rest = []) \/
     (exists e, returned (SayHelloMultiple srv req s) = Some e /\ (k < 5)%nat /\
                rest = failed_round req (1 + Z.of_nat k) e)).
Proof.
  destruct (ServerSpec.handler_run srv req s) as [k Hk].
  destruct (returned (SayHelloMultiple srv req s)) as [e|].
  - destruct Hk as [Hlt ->]. exists k, (failed_round req (1 + Z.of_nat k) e).
    split; [reflexivity|]. right. exists e. repeat split. exact Hlt.
  - destruct Hk as [-> ->]. exists 5%nat, []. rewrite app_nil_r.
    split; [reflexivity|]. left. repeat split.
Qed.

Lemma handler_replays (srv : server) (req : option HelloRequest) (s : S) :
  (sent (events (SayHelloMultiple srv req s)), state (SayHelloMultiple srv req s)) =
  replay (map fst (sent (events (SayHelloMultiple srv req s)))) s.
Proof.
  pose proof (loop_replays req 5 1 s eq_refl) as Hloop.
  unfold SayHelloMultiple, bind, log_Printf.
  destruct (SayHelloMultiple_loop req 1 s) as [[err s'] tr].
  exact Hloop.
Qed.

Lemma filter_accepted_rounds (req : option HelloRequest) (l : list nat) :
  filter accepted
    (map (fun j => (streaming_response req (1 + Z.of_nat j), @None error)) l) =
  map (fun j => (streaming_response req (1 + Z.of_nat j), @None error)) l.
Proof.
  induction l as [|j l IH]; [reflexivity|].
  cbn [map filter accepted snd]. rewrite IH. reflexivity.
Qed.

(** X1. Whatever the stream does, [SayHelloMultiple] calls [stream.Send] at
    least once and at most five times; every call but the last returned
    nil; the handler returns exactly what its last call returned; and when
    that is nil, five calls were made. *)
Theorem last_send_decides (srv : server) (req : option HelloRequest) (s : S) :
  (1 <= length (sent (events (SayHelloMultiple srv req s))) <= 5)%nat /\
  Forall (fun x => snd x = None)
    (removelast (sent (events (SayHelloMultiple srv req s)))) /\
  (exists r,
      nth_error (sent (events (SayHelloMultiple srv req s)))
        (length (sent (events (SayHelloMultiple srv req s))) - 1)
      = Some (r, returned (SayHelloMultiple srv req s))) /\
  (returned (SayHelloMultiple srv req s) = None ->
   length (sent (events (SayHelloMultiple srv req s))) = 5%nat).
Proof.
  destruct (run_shape srv req s)
    as [k [rest [Htr [[Hret [-> ->]] | [e [Hret [Hlt ->]]]]]]];
    rewrite Htr, Hret; cbn [sent]; rewrite ServerSpec.sent_app, ServerSpec.sent_rounds.
  - cbn [sent seq map app length removelast Nat.sub nth_error].
    split; [lia|]. split; [repeat constructor|].
    split; [eexists; reflexivity | reflexivity].
  - cbn [failed_round sent].
    rewrite removelast_last, length_app, length_map, length_seq.
    cbn [length]. split; [lia|]. split.
    + apply Forall_forall. intros x Hin. apply in_map_iff in Hin.
      destruct Hin as [j [<- _]]. reflexivity.
    + split; [|discriminate].
      exists (streaming_response req (1 + Z.of_nat k)).
      rewrite nth_error_app2 by (rewrite length_map, length_seq; lia).
      rewrite length_map, length_seq.
      replace (k + 1 - 1 - k)%nat with 0%nat by lia. reflexivity.
Qed.

(** X2. Whatever the stream does, the handler sleeps one second after every
    send that was accepted, and not after a send that failed: nothing
    delays the return of the error. *)
Theorem sleep_only_after_accepted_send (srv : server)
    (req : option HelloRequest) (s : S) :
  pauses (events (SayHelloMultiple srv req s)) =
  map (fun x => if accepted x then [Second] else [])
    (sent (events (SayHelloMultiple srv req s))).
Proof.
  destruct (run_shape srv req s)
    as [k [rest [Htr [[_ [_ ->]] | [e [_ [_ ->]]]]]]];
    rewrite Htr; cbn [pauses sent];
    match goal with
    | |- context [(rounds req 1 k ++ ?rest)%list] =>
        rewrite (proj2 (pauses_rounds req rest eq_refl k 1))
    end;
    rewrite ServerSpec.sent_app, ServerSpec.sent_rounds, map_app, map_map;
    cbn [accepted snd]; rewrite map_const, length_seq; reflexivity.
Qed.

(** X3. Whatever the stream does, the handler logs the request first and
    then one line "Sent streaming response #i to {name}" for each send
    that was accepted, numbered from 1; a send that failed is not logged
    (neither as sent nor as failed). *)
Theorem sent_lines_logged (srv : server) (req : option HelloRequest) (s : S) :
  logged (events (SayHelloMultiple srv req s)) =
  ("Received streaming request from: " ++ GetName req)
    :: map (fun j => sent_line req (1 + Z.of_nat j))
         (seq 0 (length (filter accepted (sent (events (SayHelloMultiple srv req s)))))).
Proof.
  destruct (run_shape srv req s)
    as [k [rest [Htr [[_ [_ ->]] | [e [_ [_ ->]]]]]]];
    rewrite Htr; cbn [logged sent];
    rewrite logged_rounds, ServerSpec.sent_app, ServerSpec.sent_rounds,
      filter_app, filter_accepted_rounds, length_app, length_map, length_seq;
    cbn [failed_round sent logged filter accepted snd length];
    rewrite Nat.add_0_r, app_nil_r; reflexivity.
Qed.

(** X4. The handler uses the stream for its sends only, and in order: what
    the sends returned and the state the stream is left in are those of
    handing the same responses to [stream.Send] one after the other from
    the initial state. *)
Theorem stream_state_threaded (srv : server) (req : option HelloRequest) (s : S) :
  (sent (events (SayHelloMultiple srv req s)), state (SayHelloMultiple srv req s)) =
  replay (map fst (sent (events (SayHelloMultiple srv req s)))) s.
Proof. apply handler_replays. Qed.

(** X5. On a stream whose [Send] never fails, the handler always returns
    nil, after handing over the five responses of rounds 1 to 5, and the
    stream ends in the state that these five sends lead to. *)
Theorem never_failing_stream (srv : server) (req : option HelloRequest) (s : S) :
  (forall (r : HelloResponse) (s0 : S), fst (stream_Send r s0) = None) ->
  returned (SayHelloMultiple srv req s) = None /\
  map fst (sent (events (SayHelloMultiple srv req s))) =
    map (streaming_response req) [1; 2; 3; 4; 5] /\
  state (SayHelloMultiple srv req s) =
    fold_left (fun st r => snd (stream_Send r st))
      (map (streaming_response req) [1; 2; 3; 4; 5]) s.
Proof.
  intro Hnever.
  pose proof (handler_replays srv req s) as Hreplay.
  assert (Hok : Forall (fun x => snd x = None)
                  (sent (events (SayHelloMultiple srv req s)))).
  { pose proof (f_equal fst Hreplay) as Hsent. cbn [fst] in Hsent.
    rewrite Hsent. apply replay_accepted, Hnever. }
  destruct (ServerSpec.clean_run srv req s Hok) as [Hret Htr].
  assert (Hsent : map fst (sent (events (SayHelloMultiple srv req s))) =
                  map (streaming_response req) [1; 2; 3; 4; 5]).
  { rewrite Htr. cbn [sent]. rewrite ServerSpec.sent_rounds, map_map. reflexivity. }
  split; [exact Hret|]. split; [exact Hsent|].
  pose proof (f_equal snd Hreplay) as Hstate. cbn [snd] in Hstate.
  rewrite Hstate, Hsent. apply replay_fold.
Qed.



End Runs.

Lemma append_same_prefix (prefix : string) (a b : string) :
  prefix ++ a = prefix ++ b -> a = b.
Proof.
  induction prefix as [|ch prefix IH]; cbn; intro Heq; [exact Heq|].
  injection Heq as Heq. apply IH, Heq.
Qed.

(** X6. The greetings tell the names apart: if two unary responses carry the
    same message, or two streamed responses of the same round do, then the
    requests had the same name. *)
Theorem greetings_tell_names_apart (srv1 srv2 : server) (ctx1 ctx2 : Context)
    (req1 req2 : option HelloRequest) (i : Z) :
  GetMessage (fst (fst (SayHello srv1 ctx1 req1))) =
    GetMessage (fst (fst (SayHello srv2 ctx2 req2)))
  \/ Message (streaming_response req1 i) = Message (streaming_response req2 i) ->
  GetName req1 = GetName req2.
Proof.
  intros [Hunary | Hstream].
  - cbn [SayHello fst GetMessage Message] in Hunary.
    apply append_same_prefix in Hunary.
    apply append_same_suffix in Hunary. exact Hunary.
  - cbn [streaming_response Message] in Hstream.
    do 3 apply append_same_prefix in Hstream.
    apply append_same_suffix in Hstream. exact Hstream.
Qed.

(** *** The theorems at concrete inputs *)
Import Substrates.



(** C10, as stated, fails: for the same name, a stream that accepts every
    send and a stream that refuses the first are handed different
    sequences, five pairs and one. *)
Lemma sequences_differ_when_a_send_fails :
  GetName Bob = GetName (Some {| Name := "Bob" |}) /\
  emitted (events (SayHelloMultiple (H := healthy_stream) mk_server Bob [])) <>
  emitted (events (SayHelloMultiple (H := flaky_stream) mk_server
                     (Some {| Name := "Bob" |}) 0%nat)).
Proof. split; [reflexivity|]. vm_compute. discriminate. Qed.

Lemma never_failing_stream_witness :
  (forall (r : HelloResponse) (s0 : healthy),
      fst (stream_Send (SayHelloMultipleServer := healthy_stream) r s0) = None) /\
  state (SayHelloMultiple (H := healthy_stream) mk_server Bob []) =
    [ {| Message := "Hello #1, Bob! Streaming response 1 of 5"; Count := 1 |};
      {| Message := "Hello #2, Bob! Streaming response 2 of 5"; Count := 2 |};
      {| Message := "Hello #3, Bob! Streaming response 3 of 5"; Count := 3 |};
      {| Message := "Hello #4, Bob! Streaming response 4 of 5"; Count := 4 |};
      {| Message := "Hello #5, Bob! Streaming response 5 of 5"; Count := 5 |} ].
Proof.
  assert (Hnever : forall (r : HelloResponse) (s0 : healthy),
             fst (stream_Send (SayHelloMultipleServer := healthy_stream) r s0) = None)
    by (intros r s0; reflexivity).
  split; [exact Hnever|].
  exact (proj2 (proj2 (never_failing_stream (H := healthy_stream)
                         mk_server Bob [] Hnever))).
Defined.

Lemma greetings_tell_names_apart_witness :
  (GetMessage (fst (fst (SayHello mk_server Background None))) =
     GetMessage (fst (fst (SayHello mk_server Background (Some {| Name := "" |}))))
   \/ Message (streaming_response None 1) =
      Message (streaming_response (Some {| Name := "" |}) 1)) /\
  GetName None = GetName (Some {| Name := "" |}).
Proof.
  assert (Hsame :
    GetMessage (fst (fst (SayHello mk_server Background None))) =
      GetMessage (fst (fst (SayHello mk_server Background (Some {| Name := "" |}))))
    \/ Message (streaming_response None 1) =
       Message (streaming_response (Some {| Name := "" |}) 1))
    by (left; reflexivity).
  split; [exact Hsame|].
  exact (greetings_tell_names_apart mk_server mk_server Background Background
           None (Some {| Name := "" |}) 1 Hsame).
Defined.

End ServerMore.

(** * More properties of the client *)
Module ClientMore.
Import Go pb Client ClientTraces.

(** Splits a trace reader over an append, by cases on the first events. *)
Ltac reader_app a :=
  let ev := fresh "ev" in
  let IH := fresh "IH" in
  induction a as [|ev a IH]; [reflexivity|];
  destruct ev; cbn; rewrite ?IH; reflexivity.

Lemma calls_app (a b : list event) : calls (a ++ b) = (calls a ++ calls b)%list.
Proof. reader_app a. Qed.

Lemma deferred_app (a b : list event) :
  deferred (a ++ b) = (deferred a ++ deferred b)%list.
Proof. reader_app a. Qed.

Lemma exits_app (a b : list event) : exits (a ++ b) = (exits a ++ exits b)%list.
Proof. reader_app a. Qed.

Lemma unary_calls_app (a b : list event) :
  unary_calls (a ++ b) = (unary_calls a ++ unary_calls b)%list.
Proof. reader_app a. Qed.

Lemma streaming_calls_app (a b : list event) :
  streaming_calls (a ++ b) = (streaming_calls a ++ streaming_calls b)%list.
Proof. reader_app a. Qed.

(** What the readers find in a trace of the receive loop. *)
Lemma loop_trace_read (o : outcome unit) (tr : list event) :
  loop_trace o tr ->
  (exists n, calls tr = repeat CallRecv n) /\
  calls_after_failure tr = [] /\
  deferred tr = [] /\
  unary_calls tr = [] /\
  streaming_calls tr = [] /\
  exits tr = match o with Exited _ => [1] | _ => [] end.
Proof.
  induction 1 as [|r|r e _|r o tr _ IH].
  - split; [exists 0%nat; reflexivity|]. repeat split.
  - split; [exists 1%nat; reflexivity|]. repeat split.
  - split; [exists 1%nat; reflexivity|]. repeat split.
  - destruct IH as [[n Hn] [Hafter [Hdef [Hun [Hstr Hex]]]]].
    split; [exists (S n); cbn; rewrite Hn; reflexivity|].
    cbn. repeat split; assumption.
Qed.

(** A trace of the receive loop that ends in an exit ends in a log line and
    the exit with code 1. *)
Lemma loop_trace_exit (o : outcome unit) (tr : list event) :
  loop_trace o tr ->
  forall code, o = Exited code ->
    code = 1 /\ exists before line, tr = (before ++ [EvLog line; EvExit 1])%list.
Proof.
  induction 1 as [|r|r e _|r o tr _ IH]; intros code Ho; try discriminate Ho.
  - injection Ho as <-. split; [reflexivity|].
    exists [EvRecv r (Some e)], ("Error receiving stream: " ++ Error e). reflexivity.
  - destruct (IH code Ho) as [Hcode [before [line ->]]]. split; [exact Hcode|].
    exists (EvRecv r None :: EvPrint (received_line r) :: before), line. reflexivity.
Qed.

(** Once the receive loop has got a non-nil error, every call that follows
    it comes after a failure. *)
Lemma loop_then_calls (o : outcome unit) (tr : list event) :
  loop_trace o tr ->
  forall rest : list event,
    calls_after_failure (tr ++ rest) =
    match o with
    | OutOfFuel => calls_after_failure rest
    | _ => calls rest
    end.
Proof.
  induction 1 as [|r|r e _|r o tr _ IH]; intro rest; cbn; try reflexivity.
  apply IH.
Qed.

Section Runs.
Context {C : Type} `{GreetingServiceClient C}.

Lemma loop_traces (fuel : nat) :
  forall c : C,
    loop_trace (ended (main_recv_loop fuel c)) (events (main_recv_loop fuel c)).
Proof.
  induction fuel as [|fuel IH]; intro c; [constructor|].
  cbn [main_recv_loop].
  unfold bind, Recv, fmt_Println, fmt_Printf, log_Fatalf, emit.
  destruct (stream_Recv c) as [[response err] c1].
  destruct err as [[|msg]|]; cbn [is_EOF]; cbv beta iota zeta.
  - apply loop_eof.
  - apply loop_error. discriminate.
  - specialize (IH c1).
    destruct (main_recv_loop fuel c1) as [[o c2] tr].
    destruct o; cbn [fst snd app] in *; apply loop_item, IH.
Qed.

Lemma main_traces (fuel : nat) (c : C) :
  main_trace (ended (main fuel c)) (events (main fuel c)).
Proof.
  destruct (grpc_NewClient "localhost:50051" c) as [[e|] c1] eqn:Hconn.
  { rewrite (ClientSpec.main_failed_connect fuel c c1 e Hconn). constructor. }
  destruct (client_SayHello {| timeout := Some 5000000000 |}
              (Some {| Name := "Alice" |}) c1) as [[response [e|]] c2] eqn:Hcall.
  { rewrite (ClientSpec.main_failed_unary_call fuel c c1 c2 response e Hconn Hcall).
    constructor. }
  destruct (client_SayHelloMultiple {| timeout := None |}
              (Some {| Name := "Bob" |}) c2) as [[e|] c3] eqn:Hstream.
  { rewrite (ClientSpec.main_failed_streaming_call fuel c c1 c2 c3 response e
               Hconn Hcall Hstream).
    constructor. }
  pose proof (ClientSpec.main_receives fuel c c1 c2 c3 response Hconn Hcall Hstream)
    as Hmain.
  cbv zeta in Hmain.
  pose proof (loop_traces fuel c3) as Hloop.
  destruct (ended (main_recv_loop fuel c3)) as [[]|code|];
    destruct Hmain as [-> ->]; constructor; exact Hloop.
Qed.

(** One round of the receive loop. *)
Lemma recv_loop_step (fuel : nat) (c : C) :
  main_recv_loop (S fuel) c =
  let '((response, err), c1) := stream_Recv c in
  if is_EOF err then
    (Returned tt, c1,
     [EvRecv response err; EvPrint (nl ++ "✅ Streaming complete!" ++ nl)])
  else
    match err with
    | Some e =>
        (Exited 1, c1,
         [EvRecv response err; EvLog ("Error receiving stream: " ++ Error e);
          EvExit 1])
    | None =>
        let '(o, c2, tr) := main_recv_loop fuel c1 in
        (o, c2, EvRecv response None :: EvPrint (received_line response) :: tr)
    end.
Proof.
  cbn [main_recv_loop].
  unfold bind, Recv, fmt_Println, fmt_Printf, log_Fatalf, emit.
  destruct (stream_Recv c) as [[response err] c1].
  destruct err as [[|msg]|]; try reflexivity.
  cbn [is_EOF]. cbv beta iota zeta.
  destruct (main_recv_loop fuel c1) as [[o c2] tr]. destruct o; reflexivity.
Qed.

(** C4. The receive loop is driven by what [stream.Recv] returns, call
    after call: its events are, result by result and so in arrival order,
    what the loop does with each result (an item is printed right after it
    is received), and it leaves the stream in the state the last call left.
    It is left normally exactly when the last result carries [io.EOF]; when
    the last result carries any other error the process logs it and exits
    with code 1, and no further receive is attempted; and the model runs
    out of fuel only when as many items as there was fuel came in, so a
    stream that ends after [n] items is handled with any fuel above [n]. *)
Theorem recv_loop_follows_stream (fuel : nat) (c : C) :
  events (main_recv_loop fuel c) = flat_map handled (fst (received fuel c)) /\
  snd (fst (main_recv_loop fuel c)) = snd (received fuel c) /\
  ended (main_recv_loop fuel c) =
    match last (fst (received fuel c)) (None, None) with
    | (_, Some io_EOF) => Returned tt
    | (_, Some (Err _)) => Exited 1
    | (_, None) => OutOfFuel
    end /\
  match ended (main_recv_loop fuel c) with
  | Returned _ =>
      exists items r,
        fst (received fuel c) =
          (map (fun item => (item, None)) items ++ [(r, Some io_EOF)])%list
  | Exited code =>
      code = 1 /\
      exists items r e,
        e <> io_EOF /\
        fst (received fuel c) =
          (map (fun item => (item, None)) items ++ [(r, Some e)])%list
  | OutOfFuel =>
      exists items,
        fst (received fuel c) = map (fun item => (item, None)) items /\
        length items = fuel
  end.
Proof.
  revert c. induction fuel as [|fuel IH]; intro c.
  - cbn. repeat split. exists []. split; reflexivity.
  - rewrite recv_loop_step. cbn [received].
    destruct (stream_Recv c) as [[response err] c1].
    destruct err as [[|msg]|]; cbn [is_EOF]; cbv beta iota zeta.
    + cbn. repeat split. exists [], response. reflexivity.
    + cbn. repeat split. exists [], response, (Err msg).
      split; [discriminate | reflexivity].
    + destruct (IH c1) as [Hev [Hst [Hend Hshape]]].
      destruct (main_recv_loop fuel c1) as [[o c2] tr].
      destruct (received fuel c1) as [rest c2'].
      cbn [fst snd] in *. subst tr c2'.
      split; [reflexivity|]. split; [reflexivity|]. split.
      * destruct rest as [|x rest]; [exact Hend|].
        cbn [last] in *. exact Hend.
      * destruct o as [a|code|].
        -- destruct Hshape as [items [r ->]]. exists (response :: items), r.
           reflexivity.
        -- destruct Hshape as [Hcode [items [r [e [He ->]]]]].
           split; [exact Hcode|]. exists (response :: items), r, e.
           split; [exact He | reflexivity].
        -- destruct Hshape as [items [-> <-]]. exists (response :: items).
           split; reflexivity.
Qed.

(** Takes a run of [main] apart into the shapes of [main_trace]. *)
Ltac by_main_trace fuel c :=
  generalize (main_traces fuel c);
  generalize (ended (main fuel c)) (events (main fuel c));
  let o := fresh "o" in
  let tr := fresh "tr" in
  let Hm := fresh "Hm" in
  intros o tr Hm; destruct Hm.

(** X7. If the stream delivers some items and then a result with a non-nil
    error, the receive loop handles exactly that, with any fuel above the
    number of items: it prints the items in order, then leaves normally on
    [io.EOF], or logs the error and exits with code 1 on any other; the
    substrate is left where the last receive left it. *)
Theorem delivered_items_are_handled (c c' : C)
    (items : list (option HelloResponse)) (last : option HelloResponse * error)
    (extra : nat) :
  delivers c items last c' ->
  main_recv_loop (S (length items + extra)) c =
    (fst (ending last), c', (flat_map item_round items ++ snd (ending last))%list).
Proof.
  induction 1 as [c c' r e Hrecv | c c1 c' r items last Hrecv _ IH];
    cbn [length Nat.add]; rewrite recv_loop_step, Hrecv.
  - destruct e; reflexivity.
  - cbn [is_EOF]. cbv beta iota zeta. rewrite IH. reflexivity.
Qed.

(** X8. Whatever the substrate does, the client process exits at most once,
    only with code 1, and the exit is the last thing it does, right after
    a log line: every failure is reported before the process goes down. *)
Theorem exit_code_and_last_words (fuel : nat) (c : C) :
  exits (events (main fuel c)) =
    match ended (main fuel c) with
    | Exited _ => [1]
    | _ => []
    end /\
  forall code,
    ended (main fuel c) = Exited code ->
    code = 1 /\
    exists before line,
      events (main fuel c) = (before ++ [EvLog line; EvExit 1])%list.
Proof.
  by_main_trace fuel c.
  - split; [reflexivity|]. intros code Hcode. injection Hcode as <-.
    split; [reflexivity|]. eexists [_], _. reflexivity.
  - split; [reflexivity|]. intros code Hcode. injection Hcode as <-.
    split; [reflexivity|]. eexists (before_unary_call ++ [_])%list, _. reflexivity.
  - split; [reflexivity|]. intros code Hcode. injection Hcode as <-.
    split; [reflexivity|].
    eexists (before_unary_call ++ _ :: between_calls response ++ [_])%list, _.
    reflexivity.
  - destruct (loop_trace_read _ _ H0) as [_ [_ [_ [_ [_ Hex]]]]].
    rewrite !exits_app, Hex. split; [reflexivity | discriminate].
  - destruct (loop_trace_read _ _ H0) as [_ [_ [_ [_ [_ Hex]]]]].
    rewrite !exits_app, Hex. split; [reflexivity|].
    intros code' Hcode. injection Hcode as <-.
    destruct (loop_trace_exit _ _ H0 code eq_refl) as [Hone [before [line ->]]].
    split; [exact Hone|].
    exists (setup response ++ before)%list, line. rewrite app_assoc. reflexivity.
  - destruct (loop_trace_read _ _ H0) as [_ [_ [_ [_ [_ Hex]]]]].
    rewrite !exits_app, Hex. split; [reflexivity | discriminate].
Qed.

(** X9. Whatever the substrate does, the deferred calls run exactly when
    [main] returns: then [cancel()] and [conn.Close()] run, in this order,
    as the last two things [main] does; on every fatal path neither runs,
    so the connection is never closed by a process that exits. *)
Theorem deferred_calls_run_on_return_only (fuel : nat) (c : C) :
  deferred (events (main fuel c)) =
    match ended (main fuel c) with
    | Returned _ => [EvCancel; EvClose]
    | _ => []
    end /\
  (ended (main fuel c) = Returned tt ->
   exists before, events (main fuel c) = (before ++ [EvCancel; EvClose])%list).
Proof.
  by_main_trace fuel c;
    try (split; [reflexivity | discriminate]);
    destruct (loop_trace_read _ _ H0) as [_ [_ [Hdef _]]];
    rewrite !deferred_app, ?Hdef;
    (split; [reflexivity|]); try discriminate.
  intros _.
  eexists (setup response ++ tr ++ [_; _])%list.
  rewrite <- !app_assoc. reflexivity.
Qed.

(** X10. Whatever the substrate does, the client calls it in a fixed order:
    [grpc.NewClient] once, then at most one [SayHello], then at most one
    [SayHelloMultiple], then only [stream.Recv], and, exactly when [main]
    returns, the deferred [cancel()] and [conn.Close()] at the very end.
    After a call that returned a non-nil error it makes no further call,
    with one exception: after the [stream.Recv] that returned [io.EOF],
    the only error on which [main] returns, the two deferred calls still
    run.  So there is no retry and no RPC after a failure. *)
Theorem calls_in_order (fuel : nat) (c : C) :
  (exists k n : nat,
      calls (events (main fuel c)) =
        (firstn k [CallNewClient; CallSayHello; CallSayHelloMultiple]
           ++ repeat CallRecv n
           ++ match ended (main fuel c) with
              | Returned _ => [CallCancel; CallClose]
              | _ => []
              end)%list /\
      (1 <= k <= 3)%nat /\ (n <> 0%nat -> k = 3%nat)) /\
  calls_after_failure (events (main fuel c)) =
    match ended (main fuel c) with
    | Returned _ => [CallCancel; CallClose]
    | _ => []
    end.
Proof.
  by_main_trace fuel c.
  - split; [|reflexivity]. exists 1%nat, 0%nat. repeat split; lia.
  - split; [|reflexivity]. exists 2%nat, 0%nat. repeat split; lia.
  - split; [|reflexivity]. exists 3%nat, 0%nat. repeat split; lia.
  - destruct (loop_trace_read _ _ H0) as [[n Hn] _]. split.
    + exists 3%nat, n. rewrite !calls_app, Hn. repeat split; lia.
    + cbn. rewrite (loop_then_calls _ _ H0). reflexivity.
  - destruct (loop_trace_read _ _ H0) as [[n Hn] [Hafter _]]. split.
    + exists 3%nat, n. rewrite !calls_app, Hn, app_nil_r. repeat split; lia.
    + cbn. exact Hafter.
  - destruct (loop_trace_read _ _ H0) as [[n Hn] [Hafter _]]. split.
    + exists 3%nat, n. rewrite !calls_app, Hn, app_nil_r. repeat split; lia.
    + cbn. exact Hafter.
Qed.

(** X11. Whatever the substrate does, the client makes at most one unary
    call, for the name "Alice" and under a context whose timeout is five
    seconds, and at most one streaming call, for the name "Bob" and under
    the background context, which has no timeout. *)
Theorem calls_carry_fixed_contexts (fuel : nat) (c : C) :
  (unary_calls (events (main fuel c)) = [] \/
   unary_calls (events (main fuel c)) =
     [(WithTimeout Background (5 * Second), Some {| Name := "Alice" |})]) /\
  (streaming_calls (events (main fuel c)) = [] \/
   streaming_calls (events (main fuel c)) =
     [(Background, Some {| Name := "Bob" |})]).
Proof.
  by_main_trace fuel c;
    try (destruct (loop_trace_read _ _ H0) as [_ [_ [_ [Hun [Hstr _]]]]]);
    rewrite ?unary_calls_app, ?streaming_calls_app, ?Hun, ?Hstr;
    split; solve [left; reflexivity | right; reflexivity].
Qed.

End Runs.

(** X12. The two halves together, over the loopback substrate: for every
    request, if the responses that [SayHelloMultiple] hands to a healthy
    stream are what the client receives, followed by [io.EOF], then the
    receive loop prints the five greetings in the order they were sent and
    leaves normally, with any fuel above five. *)
Theorem streamed_greetings_are_printed (srv : Server.server)
    (req : option HelloRequest) (extra : nat) :
  main_recv_loop (H := Substrates.loopback_client) (6 + extra)
    (map fst (Server.sent (snd (Server.SayHelloMultiple
                                  (H := Substrates.healthy_stream) srv req []))))
  = (Returned tt, [],
     (flat_map item_round
        (map (fun i => Some (Server.streaming_response req i)) [1; 2; 3; 4; 5])
        ++ [EvRecv None (Some io_EOF);
            EvPrint (nl ++ "✅ Streaming complete!" ++ nl)])%list).
Proof. vm_compute. reflexivity. Qed.

(** *** The theorems at concrete inputs *)

Lemma delivered_items_are_handled_witness :
  delivers (H := Substrates.loopback_client)
    [ {| Message := "Hello #5, Bob! Streaming response 5 of 5"; Count := 5 |} ]
    [ Some {| Message := "Hello #5, Bob! Streaming response 5 of 5"; Count := 5 |} ]
    (None, io_EOF) [] /\
  printed (events (main_recv_loop (H := Substrates.loopback_client) 2
             [ {| Message := "Hello #5, Bob! Streaming response 5 of 5"; Count := 5 |} ]))
  = [ "📨 Received: Hello #5, Bob! Streaming response 5 of 5 (Count: 5)" ++ nl;
      nl ++ "✅ Streaming complete!" ++ nl ].
Proof.
  assert (Hdel : delivers (H := Substrates.loopback_client)
            [ {| Message := "Hello #5, Bob! Streaming response 5 of 5"; Count := 5 |} ]
            [ Some {| Message := "Hello #5, Bob! Streaming response 5 of 5"; Count := 5 |} ]
            (None, io_EOF) []).
  { apply delivers_item with (c1 := []); [reflexivity|].
    apply delivers_last. reflexivity. }
  split; [exact Hdel|].
  exact (f_equal (fun run => printed (events run))
           (delivered_items_are_handled (H := Substrates.loopback_client)
              _ _ _ _ 0 Hdel)).
Defined.

End ClientMore.

(** * Properties of the server's [main] *)
Module ServerMainSpec.
Import Go pb ServerMain.

Section Runs.
Context {G : Type} `{Network G}.

(** X13. Whatever the network does, the server's [main] serves only on a
    listener it got: when [net.Listen] fails it logs "Failed to listen: ..."
    and exits with code 1 without ever calling [Serve]; otherwise it logs
    that the server is running, then calls [Serve] exactly once, and ends
    the way [Serve] does: it keeps serving, returns when [Serve] returns
    nil, or logs "Failed to serve: ..." and exits with code 1.  An exit
    never has another code. *)
Theorem serve_follows_listen (g : G) :
  match net_Listen "tcp" ":50051" g with
  | (Some e, _) =>
      ended (main g) = Exited 1 /\
      serves (events (main g)) = [] /\
      logged (events (main g)) = ["Failed to listen: " ++ Error e]
  | (None, g1) =>
      serves (events (main g)) = [fst (server_Serve g1)] /\
      match fst (server_Serve g1) with
      | ServesOn =>
          ended (main g) = Serving /\
          logged (events (main g)) =
            ["✅ gRPC Server is running on port 50051...";
             "Waiting for client connections..."]
      | Stopped None =>
          ended (main g) = Returned tt /\
          logged (events (main g)) =
            ["✅ gRPC Server is running on port 50051...";
             "Waiting for client connections..."]
      | Stopped (Some e) =>
          ended (main g) = Exited 1 /\
          logged (events (main g)) =
            ["✅ gRPC Server is running on port 50051...";
             "Waiting for client connections...";
             "Failed to serve: " ++ Error e]
      end
  end /\
  exits (events (main g)) =
    match ended (main g) with
    | Exited _ => [1]
    | _ => []
    end.
Proof.
  unfold main, bind, Listen, Serve, log_Printf, log_Fatalf, emit, ret.
  destruct (net_Listen "tcp" ":50051" g) as [[e|] g1]; cbv beta iota zeta.
  - repeat split.
  - destruct (server_Serve g1) as [[|[e|]] g2]; cbn [fst]; repeat split.
Qed.

End Runs.

(** A port that is taken: the process logs the error of [net.Listen] and
    exits, and nothing is served. *)
Example main_when_port_taken :
  main (H := scripted_network) {| port_taken := true; serve_ends := ServesOn |} =
    (Exited 1, {| port_taken := true; serve_ends := ServesOn |},
     [EvListen "tcp" ":50051"
        (Some (Err "listen tcp :50051: bind: address already in use"));
      EvLog "Failed to listen: listen tcp :50051: bind: address already in use";
      EvExit 1]).
Proof. reflexivity. Qed.

End ServerMainSpec.
